(** * Measure::MeasureDiameter

    A shallow embedding of [src/Mod/Measure/App/MeasureDiameter.cpp]: the
    selection predicates, the selection parser, [execute] and [onChanged] of
    the diameter measurement, with the properties the specification states
    about them.

    The class is an adapter between three services of the host application:
    the classification of selected elements, the boundary-representation
    kernel and the property/recompute graph.  What the class reads from those
    services is data here (a resolved shape is the sequence of edges its
    explorer yields, a measure info is a record); the services themselves are
    the variables of [Section Host]. *)

From Stdlib Require Import PrimFloat.
From stdpp Require Import base decidable option list strings.

Local Open Scope string_scope.

(** ** Base *)

Module Base.

(** [Base::Vector3d]: three doubles. *)
Record Vector3d := { x : float; y : float; z : float }.

Definition origin : Vector3d := {| x := 0; y := 0; z := 0 |}.

(** [Base::Rotation]: a quaternion. *)
Record Rotation := { q0 : float; q1 : float; q2 : float; q3 : float }.

(** [Base::Placement]: a position and a rotation. *)
Record Placement := { getPosition : Vector3d; getRotation : Rotation }.

(** Modelled from the spec: the headers of [Base::Placement] are not among
    the sources.  A default-constructed placement sits at the origin with
    the identity rotation. *)
Definition Placement_new : Placement :=
  {| getPosition := origin;
     getRotation := {| q0 := 0; q1 := 0; q2 := 0; q3 := 1 |} |}.

(** [Placement::setPosition]. *)
Definition setPosition (pos : Vector3d) (p : Placement) : Placement :=
  {| getPosition := pos; getRotation := getRotation p |}.

End Base.

(** ** The geometry kernel: what the class reads of a shape *)

Module TopAbs.

(** [TopAbs_ShapeEnum]. *)
Inductive ShapeEnum :=
| COMPOUND | COMPSOLID | SOLID | SHELL | FACE | WIRE | EDGE | VERTEX | SHAPE.

#[global] Instance ShapeEnum_eq_dec : EqDecision ShapeEnum.
Proof. solve_decision. Defined.

End TopAbs.

Module GeomAbs.

(** [GeomAbs_CurveType], the answer of [BRepAdaptor_Curve::GetType]. *)
Inductive CurveType :=
| Line | Circle | Ellipse | Hyperbola | Parabola
| BezierCurve | BSplineCurve | OffsetCurve | OtherCurve.

#[global] Instance CurveType_eq_dec : EqDecision CurveType.
Proof. solve_decision. Defined.

End GeomAbs.

Module TopoDS.

(** An edge, as far as the class looks at it: the curve type its
    [BRepAdaptor_Curve] reports. *)
Record Edge := { GetType : GeomAbs.CurveType }.

(** A [TopoDS_Shape] is null ([IsNull ()]), or has a shape type and the
    sequence of edges that [TopExp_Explorer (shape, TopAbs_EDGE)] visits, in
    visiting order. *)
Inductive Shape :=
| Null
| NonNull (ShapeType : TopAbs.ShapeEnum) (edges : list Edge).

End TopoDS.

(** ** App: documents, selections, execution results *)

Module App.

(** A document object is known by its internal name; a pointer to one may
    be null ([option]). *)
Definition DocumentObject := string.

(** [App::SubObjectT]: an object together with a sub-element name. *)
Record SubObjectT := { getObject : option DocumentObject; getSubName : string }.

(** [App::MeasureSelectionItem] and [App::MeasureSelection]. *)
Record MeasureSelectionItem := { object : SubObjectT; pickedPoint : Base.Vector3d }.

Definition MeasureSelection := list MeasureSelectionItem.

(** [std::vector::front]: undefined on an empty vector. *)
Definition front {A} (v : list A) : option A := head v.

(** [App::MeasureElementType]. *)
Inductive MeasureElementType :=
| INVALID | POINT | LINE | LINESEGMENT | CIRCLE | ARC | CURVE
| PLANE | CYLINDER | SURFACE | VOLUME.

#[global] Instance MeasureElementType_eq_dec : EqDecision MeasureElementType.
Proof. solve_decision. Defined.

(** [App::PropertyLinkSub]: the linked object and its sub-element names. *)
Record PropertyLinkSub :=
  { getValue : option DocumentObject; getSubValues : list string }.

(** The result of [execute]: [DocumentObject::StdReturn], or a freshly
    allocated [DocumentObjectExecReturn] carrying its reason. *)
Inductive DocumentObjectExecReturn :=
| StdReturn
| ExecReturn (Why : string).

End App.

(** ** Part: shape options and measure infos *)

Module Part.

Inductive ShapeOption := NeedSubElement | ResolveLink | Transform.

(** [Part::MeasureRadiusInfo], with the [valid] flag of its base class
    [Part::MeasureInfo]. *)
Record MeasureRadiusInfo :=
  { valid : bool; radius : float; pointOnCurve : Base.Vector3d }.

(** What a [std::shared_ptr<Part::MeasureInfo>] that is not null points
    to: a radius info, or an info of another class of the hierarchy (angle,
    area, distance, length, position), of which only the base class's flag
    is visible. *)
Inductive MeasureInfo :=
| RadiusInfo (info : MeasureRadiusInfo)
| OtherInfo (valid : bool).

Definition MeasureInfo_valid (i : MeasureInfo) : bool :=
  match i with
  | RadiusInfo r => valid r
  | OtherInfo v => v
  end.

(** [std::dynamic_pointer_cast<Part::MeasureRadiusInfo>]: null unless the
    pointee is a radius info. *)
Definition dynamic_pointer_cast (i : MeasureInfo) : option MeasureRadiusInfo :=
  match i with
  | RadiusInfo r => Some r
  | OtherInfo _ => None
  end.

(** Modelled from the spec: the header declaring [Part::MeasureRadiusInfo]
    is not among the sources, so its default constructor is missing.  The
    members are value-initialised: the flag is false, the radius is zero.
    An element that references no object therefore has no valid info. *)
Definition make_MeasureRadiusInfo : MeasureRadiusInfo :=
  {| valid := false; radius := 0; pointOnCurve := Base.origin |}.

End Part.

(** ** The class *)

Module MeasureDiameter.

Import App.

(** The properties [onChanged] can be told about: the two this class
    declares, and those it inherits. *)
Inductive Property :=
| PropElement
| PropDiameter
| PropInherited (name : string).

#[global] Instance Property_eq_dec : EqDecision Property.
Proof. solve_decision. Defined.

(** The object: its two properties and the two status bits the class
    queries through [isRestoring] and [isRemoving]. *)
Record t :=
  { Element : PropertyLinkSub;
    Diameter : float;
    isRestoring : bool;
    isRemoving : bool }.

(** [Element.setValue (object, subElementList)]. *)
Definition Element_setValue (obj : option DocumentObject) (subs : list string) (self : t) : t :=
  {| Element := {| getValue := obj; getSubValues := subs |};
     Diameter := Diameter self;
     isRestoring := isRestoring self;
     isRemoving := isRemoving self |}.

(** [Diameter.setValue (d)]. *)
Definition Diameter_setValue (d : float) (self : t) : t :=
  {| Element := Element self;
     Diameter := d;
     isRestoring := isRestoring self;
     isRemoving := isRemoving self |}.

(** The constructor: [Element] links nothing, [Diameter] is [0.0]. *)
Definition new : t :=
  {| Element := {| getValue := None; getSubValues := [] |};
     Diameter := 0;
     isRestoring := false;
     isRemoving := false |}.

(** How the edge loop of [isPrioritizedSelection] is left: by its
    [return false], or by exhausting the explorer with [foundCircle]. *)
Inductive LoopExit :=
| Returned (result : bool)
| Exhausted (foundCircle : bool).

(** The edge loop of [isValidSelection]: [return true] at the first circle;
    an exhausted explorer falls through to [return false]. *)
Fixpoint validEdgeLoop (expEdge : list TopoDS.Edge) : bool :=
  match expEdge with
  | [] => false
  | e :: more =>
      if decide (TopoDS.GetType e = GeomAbs.Circle) then true
      else validEdgeLoop more
  end.

(** The edge loop of [isPrioritizedSelection]. *)
Fixpoint prioritizedEdgeLoop (foundCircle : bool) (expEdge : list TopoDS.Edge) : LoopExit :=
  match expEdge with
  | [] => Exhausted foundCircle
  | e :: more =>
      if decide (TopoDS.GetType e <> GeomAbs.Circle) then Returned false
      else
        prioritizedEdgeLoop
          (if decide (TopoDS.GetType e = GeomAbs.Circle) then true else foundCircle)
          more
  end.

Definition shapeOptions : list Part.ShapeOption :=
  [Part.NeedSubElement; Part.ResolveLink; Part.Transform].

Section Host.

(** [App::MeasureManager::getMeasureElementType]. *)
Variable getMeasureElementType : MeasureSelectionItem -> MeasureElementType.

(** [Part::Feature::getShape (object, options, subname)]. *)
Variable getShape :
  option DocumentObject -> list Part.ShapeOption -> string -> TopoDS.Shape.

(** [getMeasureInfo (subject)] of the extendable measure base: a null
    pointer, or the info the geometry handler of the subject produced. *)
Variable getMeasureInfo : SubObjectT -> option Part.MeasureInfo.

(** [MeasureBase::onChanged]. *)
Variable MeasureBase_onChanged : Property -> t -> t.

Definition isValidSelection (selection : MeasureSelection) : bool :=
  if bool_decide (selection = []) || bool_decide (1 < length selection) then false
  else
    match front selection with
    | None => false (* not reached: the vector is not empty here *)
    | Some element =>
        let type := getMeasureElementType element in
        if decide (type = INVALID) then false
        else if decide (type = CIRCLE \/ type = ARC \/ type = CYLINDER) then true
        else if decide (type = SURFACE \/ type = PLANE) then
          let objT := object element in
          let shape := getShape (getObject objT) shapeOptions (getSubName objT) in
          match shape with
          | TopoDS.Null => false
          | TopoDS.NonNull ShapeType edges =>
              if decide (ShapeType = TopAbs.FACE) then validEdgeLoop edges
              else false
          end
        else false
    end.

Definition isPrioritizedSelection (selection : MeasureSelection) : bool :=
  if bool_decide (length selection <> 1) then false
  else
    match front selection with
    | None => false (* not reached: the vector has one element here *)
    | Some element =>
        let type := getMeasureElementType element in
        if decide (type = CIRCLE \/ type = ARC \/ type = CYLINDER) then true
        else if decide (type = SURFACE \/ type = PLANE) then
          let objT := object element in
          let shape := getShape (getObject objT) shapeOptions (getSubName objT) in
          match shape with
          | TopoDS.Null => false
          | TopoDS.NonNull ShapeType edges =>
              if decide (ShapeType = TopAbs.FACE) then
                match prioritizedEdgeLoop false edges with
                | Returned result => result
                | Exhausted foundCircle => if foundCircle then true else false
                end
              else false
          end
        else false
    end.

(** The returned [shared_ptr] is null exactly when the cast fails. *)
Definition getMeasureInfoFirst (self : t) : option Part.MeasureRadiusInfo :=
  match getValue (Element self), front (getSubValues (Element self)) with
  | Some object, Some sub =>
      let subject := {| getObject := Some object; getSubName := sub |} in
      match getMeasureInfo subject with
      | None => Some Part.make_MeasureRadiusInfo
      | Some info =>
          if negb (Part.MeasureInfo_valid info) then Some Part.make_MeasureRadiusInfo
          else Part.dynamic_pointer_cast info
      end
  | _, _ => Some Part.make_MeasureRadiusInfo (* !object || subElements.empty () *)
  end.

Definition execute (self : t) : DocumentObjectExecReturn * t :=
  match getMeasureInfoFirst self with
  | None => (ExecReturn "Cannot calculate diameter", self)
  | Some info =>
      if negb (Part.valid info) then (ExecReturn "Cannot calculate diameter", self)
      else (StdReturn, Diameter_setValue (Part.radius info * 2)%float self)
  end.

(** Modelled from the spec: [DocumentObject::recompute] belongs to the
    host's property/recompute graph and is not among the sources.  A
    recompute of the measurement runs the object's [execute] and hands
    its result back. *)
Definition recompute (self : t) : DocumentObjectExecReturn * t :=
  execute self.

(** The calls [onChanged] makes on the host, in order. *)
Inductive HostCall :=
| CallRecompute
| CallMeasureBaseOnChanged (prop : Property).

(** [onChanged]: the calls made, and the object afterwards.  The result
    of [recompute] is deleted, not inspected. *)
Definition onChanged (prop : Property) (self : t) : list HostCall * t :=
  if isRestoring self || isRemoving self then ([], self)
  else
    let '(calls, self1) :=
      if decide (prop = PropElement) then
        let ret := recompute self in ([CallRecompute], snd ret)
      else ([], self)
    in
    ((calls ++ [CallMeasureBaseOnChanged prop])%list, MeasureBase_onChanged prop self1).

(** [parseSelection] reads [selection.front ()] without a guard: on an
    empty vector that is undefined behaviour, [None] here.  The property
    stores the link and then notifies its object: [Element.setValue] ends
    in [onChanged (&Element)], which recomputes the measurement. *)
Definition parseSelection (selection : MeasureSelection) (self : t) : option t :=
  match front selection with
  | None => None
  | Some element =>
      let objT := object element in
      let subElementList := [getSubName objT] in
      let stored := Element_setValue (getObject objT) subElementList self in
      Some (snd (onChanged PropElement stored))
  end.

(** [getPlacement] dereferences the pointer [getMeasureInfoFirst] returns
    without a test: on a null pointer that is undefined behaviour, [None]
    here. *)
Definition getPlacement (self : t) : option Base.Placement :=
  match getMeasureInfoFirst self with
  | None => None
  | Some info =>
      let loc := Part.pointOnCurve info in
      let p := Base.Placement_new in
      Some (Base.setPosition loc p)
  end.

(** [getPointOnCurve], with the same unguarded dereference. *)
Definition getPointOnCurve (self : t) : option Base.Vector3d :=
  match getMeasureInfoFirst self with
  | None => None
  | Some info => Some (Part.pointOnCurve info)
  end.

(** [getSubject]: the linked object, null or not, as the only entry. *)
Definition getSubject (self : t) : list (option DocumentObject) :=
  [getValue (Element self)].

End Host.

(** ** The words of the properties *)

Definition isCircular (e : TopoDS.Edge) : Prop :=
  TopoDS.GetType e = GeomAbs.Circle.

#[global] Instance isCircular_dec e : Decision (isCircular e).
Proof. unfold isCircular. apply _. Defined.

(** A non-null face all of whose boundary edges are circular curves. *)
Definition allCircularFace (shape : TopoDS.Shape) : Prop :=
  exists edges, shape = TopoDS.NonNull TopAbs.FACE edges /\ Forall isCircular edges.

(** A non-null face with at least one circular boundary edge. *)
Definition someCircularFace (shape : TopoDS.Shape) : Prop :=
  exists edges, shape = TopoDS.NonNull TopAbs.FACE edges /\ Exists isCircular edges.

(** The shape both selection predicates resolve for an element. *)
Definition resolved
    (getShape : option DocumentObject -> list Part.ShapeOption -> string -> TopoDS.Shape)
    (element : MeasureSelectionItem) : TopoDS.Shape :=
  getShape (getObject (object element)) shapeOptions (getSubName (object element)).

(** The measure info of the [Element] property exists and is valid. *)
Definition hasValidInfo (first : option Part.MeasureRadiusInfo) : Prop :=
  exists info, first = Some info /\ Part.valid info = true.

(** ** A sample document

    A cylinder with a hole drilled across: [Edge1] is the rim circle,
    [Edge2] a straight seam, [Face1] the end disc, [Face2] a half disc
    bounded by an arc and a chord, [Face3] a closed surface without
    boundary edges. *)

Module Sample.

Definition item (sub : string) : MeasureSelectionItem :=
  {| object := {| getObject := Some "Cylinder"; getSubName := sub |};
     pickedPoint := Base.origin |}.

Definition circle : TopoDS.Edge := {| TopoDS.GetType := GeomAbs.Circle |}.
Definition line : TopoDS.Edge := {| TopoDS.GetType := GeomAbs.Line |}.

Definition getMeasureElementType (element : MeasureSelectionItem) : MeasureElementType :=
  let sub := getSubName (object element) in
  if String.eqb sub "Edge1" then CIRCLE
  else if String.eqb sub "Edge2" then LINE
  else if String.eqb sub "Face1" then PLANE
  else if String.eqb sub "Face2" then PLANE
  else if String.eqb sub "Face3" then SURFACE
  else INVALID.

Definition getShape (obj : option DocumentObject) (options : list Part.ShapeOption)
    (sub : string) : TopoDS.Shape :=
  match obj with
  | None => TopoDS.Null
  | Some _ =>
      if String.eqb sub "Edge1" then TopoDS.NonNull TopAbs.EDGE [circle]
      else if String.eqb sub "Edge2" then TopoDS.NonNull TopAbs.EDGE [line]
      else if String.eqb sub "Face1" then TopoDS.NonNull TopAbs.FACE [circle]
      else if String.eqb sub "Face2" then TopoDS.NonNull TopAbs.FACE [circle; line]
      else if String.eqb sub "Face3" then TopoDS.NonNull TopAbs.FACE []
      else TopoDS.Null
  end.

Definition rim : Part.MeasureRadiusInfo :=
  {| Part.valid := true; Part.radius := 2.5; Part.pointOnCurve := Base.origin |}.

Definition getMeasureInfo (subject : SubObjectT) : option Part.MeasureInfo :=
  let sub := getSubName subject in
  if String.eqb sub "Edge1" then Some (Part.RadiusInfo rim)
  else if String.eqb sub "Edge2" then
    Some (Part.RadiusInfo Part.make_MeasureRadiusInfo)
  else if String.eqb sub "Face3" then Some (Part.OtherInfo true)
  else None.

Definition MeasureBase_onChanged (prop : Property) (self : t) : t := self.

(** A new measurement whose [Element] was set to the rim. *)
Definition linkedToRim : t :=
  Element_setValue (Some "Cylinder") ["Edge1"] new.

(** The measurement of the rim, computed. *)
Definition ofRim : t :=
  {| Element := {| getValue := Some "Cylinder"; getSubValues := ["Edge1"] |};
     Diameter := 5;
     isRestoring := false;
     isRemoving := false |}.

(** The same object after its [Element] was pointed at the seam. *)
Definition movedToSeam : t :=
  {| Element := {| getValue := Some "Cylinder"; getSubValues := ["Edge2"] |};
     Diameter := 5;
     isRestoring := false;
     isRemoving := false |}.

(** The explorer of the same document visiting every shape's edges in the
    opposite order. *)
Definition getShapeReversed (obj : option DocumentObject)
    (options : list Part.ShapeOption) (sub : string) : TopoDS.Shape :=
  match getShape obj options sub with
  | TopoDS.Null => TopoDS.Null
  | TopoDS.NonNull ShapeType edges => TopoDS.NonNull ShapeType (reverse edges)
  end.

(** A host whose handler fills in a radius and a point before it gives up
    and leaves the info invalid. *)
Definition abandoned : Part.MeasureRadiusInfo :=
  {| Part.valid := false; Part.radius := 7;
     Part.pointOnCurve := {| Base.x := 1; Base.y := 2; Base.z := 3 |} |}.

Definition getMeasureInfoAbandoned (subject : SubObjectT) : option Part.MeasureInfo :=
  Some (Part.RadiusInfo abandoned).

(** A measurement whose [Element] was set to the closed surface, for which
    the host reports a valid info that is not a radius info. *)
Definition linkedToSurface : t :=
  Element_setValue (Some "Cylinder") ["Face3"] new.

(** The measurement of the rim while the document is being restored. *)
Definition restoringRim : t :=
  {| Element := {| getValue := Some "Cylinder"; getSubValues := ["Edge1"] |};
     Diameter := 5;
     isRestoring := true;
     isRemoving := false |}.

End Sample.

(** ** The edge loops *)

Lemma validEdgeLoop_Exists (edges : list TopoDS.Edge) :
  validEdgeLoop edges = true <-> Exists isCircular edges.
Proof.
  induction edges as [|e more IH]; simpl.
  - split; [discriminate | intros H; inversion H].
  - rewrite Exists_cons. case_decide; unfold isCircular in *; intuition.
Qed.

Lemma prioritizedEdgeLoop_all (foundCircle : bool) (edges : list TopoDS.Edge) :
  Forall isCircular edges ->
  prioritizedEdgeLoop foundCircle edges
  = Exhausted (match edges with [] => foundCircle | _ => true end).
Proof.
  intros Hall. revert foundCircle.
  induction Hall as [|e more He _ IH]; intros foundCircle; simpl; [done|].
  unfold isCircular in He.
  destruct (decide (TopoDS.GetType e <> GeomAbs.Circle)) as [Hne|_]; [done|].
  destruct (decide (TopoDS.GetType e = GeomAbs.Circle)) as [_|Hne]; [|done].
  rewrite IH. by destruct more.
Qed.

Lemma prioritizedEdgeLoop_other (foundCircle : bool) (edges : list TopoDS.Edge) :
  ~ Forall isCircular edges ->
  prioritizedEdgeLoop foundCircle edges = Returned false.
Proof.
  revert foundCircle.
  induction edges as [|e more IH]; intros foundCircle Hnot; simpl.
  - destruct Hnot. constructor.
  - destruct (decide (TopoDS.GetType e <> GeomAbs.Circle)) as [Hne|He]; [done|].
    apply IH. intros Hmore. apply Hnot. constructor; [|done].
    unfold isCircular. by destruct (decide (TopoDS.GetType e = GeomAbs.Circle)).
Qed.

(** The loop of [isPrioritizedSelection] accepts exactly the non-empty edge
    sequences made of circles only. *)
Lemma prioritizedEdgeLoop_accepts (edges : list TopoDS.Edge) :
  match prioritizedEdgeLoop false edges with
  | Returned result => result
  | Exhausted foundCircle => if foundCircle then true else false
  end = true
  <-> edges <> [] /\ Forall isCircular edges.
Proof.
  destruct (decide (Forall isCircular edges)) as [Hall|Hnot].
  - rewrite (prioritizedEdgeLoop_all _ _ Hall).
    destruct edges; split; try done; intros [? ?]; done.
  - rewrite (prioritizedEdgeLoop_other _ _ Hnot).
    split; [done | intros [_ ?]; done].
Qed.

Lemma Forall_nonempty_Exists {A} (P : A -> Prop) (l : list A) :
  l <> [] -> Forall P l -> Exists P l.
Proof.
  intros Hne Hall. destruct Hall as [|a l Ha _]; [done|]. by constructor.
Qed.

(** ** The selection predicates *)

Section Selection.

Variable getMeasureElementType : MeasureSelectionItem -> MeasureElementType.
Variable getShape :
  option DocumentObject -> list Part.ShapeOption -> string -> TopoDS.Shape.

Local Abbreviation isValid := (isValidSelection getMeasureElementType getShape).
Local Abbreviation isPrioritized := (isPrioritizedSelection getMeasureElementType getShape).
Local Abbreviation resolved := (resolved getShape).

Lemma isValidSelection_not_single (selection : MeasureSelection) :
  length selection <> 1 -> isValid selection = false.
Proof.
  intros Hlen. unfold isValidSelection.
  destruct selection as [|a [|b rest]]; simpl in *; done.
Qed.

Lemma isPrioritizedSelection_not_single (selection : MeasureSelection) :
  length selection <> 1 -> isPrioritized selection = false.
Proof.
  intros Hlen. unfold isPrioritizedSelection. by rewrite bool_decide_true.
Qed.

(** On a single element [isValidSelection] is its classification
    cascade. *)
Lemma isValidSelection_single (element : MeasureSelectionItem) :
  isValid [element]
  = let type := getMeasureElementType element in
    if decide (type = INVALID) then false
    else if decide (type = CIRCLE \/ type = ARC \/ type = CYLINDER) then true
    else if decide (type = SURFACE \/ type = PLANE) then
      match resolved element with
      | TopoDS.Null => false
      | TopoDS.NonNull ShapeType edges =>
          if decide (ShapeType = TopAbs.FACE) then validEdgeLoop edges else false
      end
    else false.
Proof. reflexivity. Qed.

Lemma isPrioritizedSelection_single (element : MeasureSelectionItem) :
  isPrioritized [element]
  = let type := getMeasureElementType element in
    if decide (type = CIRCLE \/ type = ARC \/ type = CYLINDER) then true
    else if decide (type = SURFACE \/ type = PLANE) then
      match resolved element with
      | TopoDS.Null => false
      | TopoDS.NonNull ShapeType edges =>
          if decide (ShapeType = TopAbs.FACE) then
            match prioritizedEdgeLoop false edges with
            | Returned result => result
            | Exhausted foundCircle => if foundCircle then true else false
            end
          else false
      end
    else false.
Proof. reflexivity. Qed.

(** A face element is prioritized exactly when its face has at least one
    boundary edge and all of them are circular. *)
Lemma isPrioritizedSelection_face (element : MeasureSelectionItem) :
  getMeasureElementType element = SURFACE \/ getMeasureElementType element = PLANE ->
  isPrioritized [element] = true
  <-> exists edges, resolved element = TopoDS.NonNull TopAbs.FACE edges
                    /\ edges <> [] /\ Forall isCircular edges.
Proof.
  intros Htype. rewrite isPrioritizedSelection_single. cbv zeta.
  destruct (decide (_ \/ _ \/ _)) as [Hround|_].
  { destruct Htype as [H|H], Hround as [H'|[H'|H']]; congruence. }
  rewrite decide_True by done.
  destruct (resolved element) as [|ShapeType edges].
  - split; [done | intros (? & ? & _); done].
  - destruct (decide (ShapeType = TopAbs.FACE)) as [->|Hother].
    + rewrite prioritizedEdgeLoop_accepts. split.
      * intros [? ?]. by exists edges.
      * intros (edges' & Heq & ? & ?). by simplify_eq.
    + split; [done | intros (? & ? & _); congruence].
Qed.

(** C1, as the code has it: for a selection of exactly one element
    classified SURFACE or PLANE, [isValidSelection] returns true if and
    only if the shape resolved from the element is a non-null face with
    at least one circular boundary edge. *)
Theorem isValidSelection_face_with_circle (element : MeasureSelectionItem) :
  getMeasureElementType element = SURFACE \/ getMeasureElementType element = PLANE ->
  isValid [element] = true <-> someCircularFace (resolved element).
Proof.
  intros Htype. rewrite isValidSelection_single. cbv zeta.
  destruct (decide (_ = INVALID)) as [Hinv|_].
  { destruct Htype; congruence. }
  destruct (decide (_ \/ _ \/ _)) as [Hround|_].
  { destruct Htype as [H|H], Hround as [H'|[H'|H']]; congruence. }
  rewrite decide_True by done. unfold someCircularFace.
  destruct (resolved element) as [|ShapeType edges].
  - split; [done | intros (? & ? & _); done].
  - destruct (decide (ShapeType = TopAbs.FACE)) as [->|Hother].
    + rewrite validEdgeLoop_Exists. split.
      * intros ?. by exists edges.
      * intros (edges' & Heq & ?). by simplify_eq.
    + split; [done | intros (? & ? & _); congruence].
Qed.

(** C3: a selection of exactly one element classified CIRCLE, ARC or
    CYLINDER is valid. *)
Theorem isValidSelection_round (element : MeasureSelectionItem) :
  getMeasureElementType element = CIRCLE
  \/ getMeasureElementType element = ARC
  \/ getMeasureElementType element = CYLINDER ->
  isValid [element] = true.
Proof.
  intros Hround. rewrite isValidSelection_single. cbv zeta.
  rewrite decide_False by (destruct Hround as [H|[H|H]]; rewrite H; done).
  by rewrite decide_True.
Qed.

(** C4: an empty selection and a selection of more than one element are
    rejected by [isValidSelection] and by [isPrioritizedSelection]; a
    selection either of them accepts consists of a single element. *)
Theorem selection_must_be_single (selection : MeasureSelection) :
  (selection = [] \/ 1 < length selection ->
   isValid selection = false /\ isPrioritized selection = false)
  /\ (isValid selection = true \/ isPrioritized selection = true ->
      exists element, selection = [element]).
Proof.
  split.
  - intros Hsize.
    assert (length selection <> 1) as Hlen.
    { destruct Hsize as [->|?]; simpl; lia. }
    split; [by apply isValidSelection_not_single
           | by apply isPrioritizedSelection_not_single].
  - intros Haccepted.
    destruct selection as [|element [|second rest]]; [| by exists element |].
    + destruct Haccepted as [H|H]; discriminate H.
    + destruct Haccepted as [H|H];
        [rewrite isValidSelection_not_single in H
        | rewrite isPrioritizedSelection_not_single in H]; simpl; done.
Qed.

(** C6: whatever [isPrioritizedSelection] accepts, [isValidSelection]
    accepts too; and a SURFACE or PLANE element resolved to a face
    without boundary edges is rejected by [isPrioritizedSelection], no
    circular edge being found. *)
Theorem prioritized_is_valid :
  (forall selection : MeasureSelection,
      isPrioritized selection = true -> isValid selection = true)
  /\ (forall element : MeasureSelectionItem,
        getMeasureElementType element = SURFACE
        \/ getMeasureElementType element = PLANE ->
        resolved element = TopoDS.NonNull TopAbs.FACE [] ->
        isPrioritized [element] = false).
Proof.
  split.
  - intros selection Hprio.
    destruct (decide (length selection = 1)) as [Hlen|Hlen];
      [| by rewrite isPrioritizedSelection_not_single in Hprio].
    destruct selection as [|element [|? ?]]; try done. clear Hlen.
    destruct (decide (getMeasureElementType element = CIRCLE
                      \/ getMeasureElementType element = ARC
                      \/ getMeasureElementType element = CYLINDER)) as [Hround|Hface].
    { rewrite isValidSelection_single. cbv zeta.
      rewrite decide_False by (destruct Hround as [H|[H|H]]; rewrite H; done).
      by rewrite decide_True. }
    assert (getMeasureElementType element = SURFACE
            \/ getMeasureElementType element = PLANE) as Htype.
    { rewrite isPrioritizedSelection_single in Hprio. cbv zeta in Hprio.
      rewrite decide_False in Hprio by done.
      by destruct (decide (_ \/ _)). }
    apply isPrioritizedSelection_face in Hprio as (edges & Hshape & Hne & Hall); [|done].
    rewrite isValidSelection_single. cbv zeta.
    rewrite decide_False by (destruct Htype as [H|H]; rewrite H; done).
    rewrite decide_False by done.
    rewrite decide_True by done.
    rewrite Hshape, decide_True by done.
    apply validEdgeLoop_Exists. by apply Forall_nonempty_Exists.
  - intros element Htype Hshape.
    apply not_true_is_false. intros Hprio.
    apply isPrioritizedSelection_face in Hprio as (edges & Heq & Hne & _); [|done].
    rewrite Hshape in Heq. by simplify_eq.
Qed.

End Selection.

(** ** The object: [parseSelection], [execute], [onChanged] *)

Section Object.

Variable getMeasureInfo : SubObjectT -> option Part.MeasureInfo.
Variable MeasureBase_onChanged : Property -> t -> t.

Local Abbreviation first := (getMeasureInfoFirst getMeasureInfo).
Local Abbreviation exec := (execute getMeasureInfo).
Local Abbreviation changed := (onChanged getMeasureInfo MeasureBase_onChanged).

(** A valid first info is the radius info the host reported for the
    first sub-element of [Element]: the info made up for the failure
    cases is not valid. *)
Lemma getMeasureInfoFirst_valid (self : t) (info : Part.MeasureRadiusInfo) :
  first self = Some info ->
  Part.valid info = true ->
  exists object sub rest,
    Element self = {| getValue := Some object; getSubValues := sub :: rest |}
    /\ getMeasureInfo {| getObject := Some object; getSubName := sub |}
       = Some (Part.RadiusInfo info).
Proof.
  unfold getMeasureInfoFirst. intros Hfirst Hvalid.
  destruct self as [[[object|] [|sub rest]] d r1 r2]; simpl in *;
    try (injection Hfirst as <-; discriminate Hvalid).
  exists object, sub, rest. split; [done|].
  destruct (getMeasureInfo _) as [[r|v]|];
    simpl in *; try (injection Hfirst as <-; discriminate Hvalid).
  - destruct (Part.valid r); simpl in *; [by injection Hfirst as -> |].
    injection Hfirst as <-. discriminate Hvalid.
  - destruct v; simpl in *; [done|]. injection Hfirst as <-. discriminate Hvalid.
Qed.

Lemma getMeasureInfoFirst_unlinked (self : t) :
  getValue (Element self) = None \/ getSubValues (Element self) = [] ->
  first self = Some Part.make_MeasureRadiusInfo.
Proof.
  unfold getMeasureInfoFirst. intros [-> | ->]; [done|].
  by destruct (getValue (Element self)).
Qed.

Lemma execute_valid (self : t) (info : Part.MeasureRadiusInfo) :
  first self = Some info ->
  Part.valid info = true ->
  exec self = (StdReturn, Diameter_setValue (Part.radius info * 2)%float self).
Proof. unfold execute. intros -> ->. reflexivity. Qed.

Lemma execute_invalid (self : t) :
  ~ hasValidInfo (first self) ->
  exec self = (ExecReturn "Cannot calculate diameter", self).
Proof.
  unfold execute, hasValidInfo. intros Hnone.
  destruct (first self) as [info|]; [|done].
  destruct (Part.valid info) eqn:Hvalid; [|done].
  destruct Hnone. by exists info.
Qed.

(** C2: when the first measure info of [Element] exists and is valid,
    [execute] sets [Diameter] to twice its radius, in double arithmetic,
    and returns [StdReturn]; that info is the one the host reported for
    the linked element. *)
Theorem execute_doubles_radius (self : t) (info : Part.MeasureRadiusInfo) :
  first self = Some info ->
  Part.valid info = true ->
  exec self = (StdReturn, Diameter_setValue (Part.radius info * 2)%float self)
  /\ Diameter (snd (exec self)) = (Part.radius info * 2)%float
  /\ exists object sub rest,
      Element self = {| getValue := Some object; getSubValues := sub :: rest |}
      /\ getMeasureInfo {| getObject := Some object; getSubName := sub |}
         = Some (Part.RadiusInfo info).
Proof.
  intros Hfirst Hvalid. rewrite (execute_valid _ _ Hfirst Hvalid).
  repeat split. by apply getMeasureInfoFirst_valid.
Qed.

(** C5: when the measure info of [Element] is absent or not valid, as it
    is when [Element] links no object or has no sub-element, [execute]
    returns the error "Cannot calculate diameter" and leaves the object,
    [Diameter] included, as it was. *)
Theorem execute_without_info (self : t) :
  first self = None
  \/ (exists info, first self = Some info /\ Part.valid info = false)
  \/ getValue (Element self) = None
  \/ getSubValues (Element self) = [] ->
  exec self = (ExecReturn "Cannot calculate diameter", self)
  /\ Diameter (snd (exec self)) = Diameter self.
Proof.
  intros Hcase.
  assert (~ hasValidInfo (first self)) as Hnone.
  { intros (info & Hfirst & Hvalid).
    destruct Hcase as [H|[(other & H & Hinvalid)|H]].
    - congruence.
    - rewrite Hfirst in H. injection H as ->. congruence.
    - rewrite getMeasureInfoFirst_unlinked in Hfirst by done.
      injection Hfirst as <-. discriminate Hvalid. }
  by rewrite (execute_invalid _ Hnone).
Qed.

(** C7: a successful [execute] writes [Diameter] and nothing else: the
    [Element] property and the status of the object are as before. *)
Theorem execute_frame (self : t) :
  fst (exec self) = StdReturn ->
  snd (exec self) = Diameter_setValue (Diameter (snd (exec self))) self
  /\ Element (snd (exec self)) = Element self
  /\ isRestoring (snd (exec self)) = isRestoring self
  /\ isRemoving (snd (exec self)) = isRemoving self.
Proof.
  unfold execute. intros _.
  destruct (first self) as [info|]; [|by destruct self].
  destruct (Part.valid info); simpl; [done | by destruct self].
Qed.

(** C8, as the code has it: when [Element] changes and the object is
    neither being restored nor being removed, [onChanged] calls
    [recompute] once and then the base class; the recompute sets
    [Diameter] to twice the radius of the new element when its measure
    info is valid and leaves the object as it was otherwise.  A change
    of any other property, or a change during restore or removal, calls
    no recompute. *)
Theorem onChanged_recomputes (prop : Property) (self : t) :
  (prop = PropElement -> isRestoring self = false -> isRemoving self = false ->
   fst (changed prop self) = [CallRecompute; CallMeasureBaseOnChanged PropElement]
   /\ snd (changed prop self) = MeasureBase_onChanged PropElement (snd (exec self))
   /\ (forall info, first self = Some info -> Part.valid info = true ->
       Diameter (snd (exec self)) = (Part.radius info * 2)%float)
   /\ (~ hasValidInfo (first self) -> snd (exec self) = self))
  /\ (prop <> PropElement \/ isRestoring self = true \/ isRemoving self = true ->
      (CallRecompute ∉ fst (changed prop self))
      /\ snd (changed prop self)
         = if isRestoring self || isRemoving self then self
           else MeasureBase_onChanged prop self).
Proof.
  unfold onChanged, recompute. split.
  - intros -> -> ->. simpl. repeat split.
    + intros info Hfirst Hvalid. by rewrite (execute_valid _ _ Hfirst Hvalid).
    + intros Hnone. by rewrite (execute_invalid _ Hnone).
  - intros Hcase.
    destruct (isRestoring self || isRemoving self) eqn:Hbusy; simpl.
    { split; [apply not_elem_of_nil | done]. }
    apply orb_false_elim in Hbusy as [Hr1 Hr2].
    destruct (decide (prop = PropElement)) as [->|Hother].
    { destruct Hcase as [?|[?|?]]; congruence. }
    simpl. split; [|done].
    rewrite list_elem_of_singleton. discriminate.
Qed.

(** [execute] never writes [Element]. *)
Lemma execute_Element (self : t) :
  Element (snd (exec self)) = Element self.
Proof.
  unfold execute. destruct (first self) as [info|]; [|done].
  by destruct (Part.valid info).
Qed.

(** What [parseSelection] leaves on a selection with a front element: the
    object after the notification of the stored link. *)
Lemma parseSelection_front (selection : MeasureSelection) (self : t)
    (element : MeasureSelectionItem) :
  front selection = Some element ->
  parseSelection getMeasureInfo MeasureBase_onChanged selection self
  = Some (snd (changed PropElement
                 (Element_setValue (getObject (object element))
                    [getSubName (object element)] self))).
Proof. unfold parseSelection. by intros ->. Qed.

(** The base class's [onChanged] is host code: it is taken not to write the
    [Element] property of this class. *)
Hypothesis MeasureBase_onChanged_Element :
  forall (prop : Property) (self : t),
    Element (MeasureBase_onChanged prop self) = Element self.

Lemma onChanged_Element (prop : Property) (self : t) :
  Element (snd (changed prop self)) = Element self.
Proof.
  unfold onChanged, recompute.
  destruct (isRestoring self || isRemoving self); [done|].
  destruct (decide (prop = PropElement)); simpl;
    rewrite MeasureBase_onChanged_Element; [apply execute_Element | done].
Qed.

(** C9: [parseSelection] reads the front of the selection without a
    guard, so it is defined exactly on the non-empty selections; there
    it sets [Element] to the object of the first element with that
    element's sub-name as the only sub-element, whatever follows, and the
    object is the one the notification of that store leaves. *)
Theorem parseSelection_reads_front (selection : MeasureSelection) (self : t) :
  (parseSelection getMeasureInfo MeasureBase_onChanged selection self = None
   <-> selection = [])
  /\ (forall element rest, selection = element :: rest ->
      exists self',
        parseSelection getMeasureInfo MeasureBase_onChanged selection self = Some self'
        /\ Element self'
           = {| getValue := getObject (object element);
                getSubValues := [getSubName (object element)] |}
        /\ self' = snd (changed PropElement
                          (Element_setValue (getObject (object element))
                             [getSubName (object element)] self))).
Proof.
  split.
  - destruct selection; simpl; split; done.
  - intros element rest ->. eexists.
    split; [by apply parseSelection_front|].
    split; [|done]. by rewrite onChanged_Element.
Qed.

End Object.

(** ** The properties on the sample document *)

Section OnSample.

Local Abbreviation isValid :=
  (isValidSelection Sample.getMeasureElementType Sample.getShape).
Local Abbreviation isPrioritized :=
  (isPrioritizedSelection Sample.getMeasureElementType Sample.getShape).
Local Abbreviation first := (getMeasureInfoFirst Sample.getMeasureInfo).
Local Abbreviation exec := (execute Sample.getMeasureInfo).
Local Abbreviation changed :=
  (onChanged Sample.getMeasureInfo Sample.MeasureBase_onChanged).

(** The half disc is valid, and one of its two edges is a chord: the
    face of a valid selection need not have circular edges only. *)
Lemma isValidSelection_half_disc :
  Sample.getMeasureElementType (Sample.item "Face2") = PLANE
  /\ isValid [Sample.item "Face2"] = true
  /\ ~ allCircularFace (resolved Sample.getShape (Sample.item "Face2")).
Proof.
  split; [reflexivity|]. split; [reflexivity|].
  intros (edges & Heq & Hall). vm_compute in Heq. injection Heq as <-.
  apply Forall_cons in Hall as [_ Hline].
  apply Forall_cons in Hline as [Hline _]. discriminate Hline.
Qed.

(** The closed surface has no boundary edge: all of its edges are
    circular, none is, and the selection is not valid. *)
Remark isValidSelection_edgeless_face :
  Sample.getMeasureElementType (Sample.item "Face3") = SURFACE
  /\ allCircularFace (resolved Sample.getShape (Sample.item "Face3"))
  /\ isValid [Sample.item "Face3"] = false.
Proof.
  split; [reflexivity|]. split; [|reflexivity].
  exists []. split; [reflexivity | constructor].
Qed.

Lemma isValidSelection_face_with_circle_half_disc :
  (Sample.getMeasureElementType (Sample.item "Face2") = SURFACE
   \/ Sample.getMeasureElementType (Sample.item "Face2") = PLANE)
  /\ (isValid [Sample.item "Face2"] = true
      <-> someCircularFace (resolved Sample.getShape (Sample.item "Face2"))).
Proof.
  split; [right; reflexivity|].
  apply (isValidSelection_face_with_circle
           Sample.getMeasureElementType Sample.getShape (Sample.item "Face2")).
  right; reflexivity.
Defined.

Lemma execute_doubles_radius_rim :
  first Sample.linkedToRim = Some Sample.rim
  /\ Part.valid Sample.rim = true
  /\ exec Sample.linkedToRim = (StdReturn, Sample.ofRim).
Proof.
  split; [reflexivity|]. split; [reflexivity|].
  pose proof (execute_doubles_radius Sample.getMeasureInfo
                Sample.linkedToRim Sample.rim eq_refl eq_refl) as [Hexec _].
  rewrite Hexec. reflexivity.
Defined.

Lemma isValidSelection_round_rim :
  (Sample.getMeasureElementType (Sample.item "Edge1") = CIRCLE
   \/ Sample.getMeasureElementType (Sample.item "Edge1") = ARC
   \/ Sample.getMeasureElementType (Sample.item "Edge1") = CYLINDER)
  /\ isValid [Sample.item "Edge1"] = true.
Proof.
  split; [left; reflexivity|].
  apply (isValidSelection_round
           Sample.getMeasureElementType Sample.getShape (Sample.item "Edge1")).
  left; reflexivity.
Defined.

Lemma selection_must_be_single_sample :
  (isValid [] = false /\ isPrioritized [] = false)
  /\ (isValid [Sample.item "Edge1"; Sample.item "Face1"] = false
      /\ isPrioritized [Sample.item "Edge1"; Sample.item "Face1"] = false)
  /\ exists element, [Sample.item "Edge1"] = [element].
Proof.
  split; [|split].
  - apply (selection_must_be_single
             Sample.getMeasureElementType Sample.getShape []).
    left; reflexivity.
  - apply (selection_must_be_single Sample.getMeasureElementType Sample.getShape
             [Sample.item "Edge1"; Sample.item "Face1"]).
    right; simpl; lia.
  - apply (selection_must_be_single
             Sample.getMeasureElementType Sample.getShape [Sample.item "Edge1"]).
    left; reflexivity.
Defined.

Lemma execute_without_info_unlinked :
  getValue (Element new) = None
  /\ exec new = (ExecReturn "Cannot calculate diameter", new)
  /\ exec Sample.movedToSeam
     = (ExecReturn "Cannot calculate diameter", Sample.movedToSeam).
Proof.
  split; [reflexivity|]. split.
  - apply (execute_without_info Sample.getMeasureInfo new).
    right; right; left; reflexivity.
  - apply (execute_without_info Sample.getMeasureInfo Sample.movedToSeam).
    right; left. exists Part.make_MeasureRadiusInfo. split; reflexivity.
Defined.

Lemma prioritized_is_valid_sample :
  isPrioritized [Sample.item "Face1"] = true
  /\ isValid [Sample.item "Face1"] = true
  /\ isPrioritized [Sample.item "Face3"] = false.
Proof.
  split; [reflexivity|]. split.
  - apply (proj1 (prioritized_is_valid Sample.getMeasureElementType Sample.getShape)).
    reflexivity.
  - apply (proj2 (prioritized_is_valid Sample.getMeasureElementType Sample.getShape)).
    + left; reflexivity.
    + reflexivity.
Defined.

Lemma execute_frame_rim :
  fst (exec Sample.ofRim) = StdReturn
  /\ Element (snd (exec Sample.ofRim)) = Element Sample.ofRim.
Proof.
  split; [reflexivity|].
  apply (execute_frame Sample.getMeasureInfo Sample.ofRim). reflexivity.
Defined.

(** The object was measuring the rim and its [Element] now points at the
    seam, which has no radius: [onChanged] recomputes, the recompute
    fails, and [Diameter] still holds the diameter of the rim. *)
Lemma onChanged_keeps_stale_diameter :
  isRestoring Sample.movedToSeam = false
  /\ isRemoving Sample.movedToSeam = false
  /\ fst (changed PropElement Sample.movedToSeam)
     = [CallRecompute; CallMeasureBaseOnChanged PropElement]
  /\ first Sample.movedToSeam = Some Part.make_MeasureRadiusInfo
  /\ Diameter (snd (changed PropElement Sample.movedToSeam)) = 5%float
  /\ Diameter (snd (changed PropElement Sample.movedToSeam))
     <> (Part.radius Part.make_MeasureRadiusInfo * 2)%float.
Proof.
  repeat (split; [reflexivity|]).
  intros Heq. apply (f_equal (fun d => PrimFloat.eqb d 5)) in Heq.
  vm_compute in Heq. discriminate Heq.
Qed.

Lemma onChanged_recomputes_sample :
  fst (changed PropElement Sample.ofRim)
  = [CallRecompute; CallMeasureBaseOnChanged PropElement]
  /\ (CallRecompute ∉ fst (changed PropDiameter Sample.ofRim)).
Proof.
  split.
  - apply (onChanged_recomputes Sample.getMeasureInfo Sample.MeasureBase_onChanged
             PropElement Sample.ofRim); reflexivity.
  - apply (onChanged_recomputes Sample.getMeasureInfo Sample.MeasureBase_onChanged
             PropDiameter Sample.ofRim).
    left; discriminate.
Defined.

Lemma parseSelection_reads_front_sample :
  parseSelection Sample.getMeasureInfo Sample.MeasureBase_onChanged [] new = None
  /\ exists self',
      parseSelection Sample.getMeasureInfo Sample.MeasureBase_onChanged
        [Sample.item "Edge1"; Sample.item "Face1"] new = Some self'
      /\ Element self' = {| getValue := Some "Cylinder"; getSubValues := ["Edge1"] |}.
Proof.
  split.
  - apply (parseSelection_reads_front Sample.getMeasureInfo
             Sample.MeasureBase_onChanged (fun _ _ => eq_refl) [] new).
    reflexivity.
  - destruct (proj2 (parseSelection_reads_front Sample.getMeasureInfo
                       Sample.MeasureBase_onChanged (fun _ _ => eq_refl)
                       [Sample.item "Edge1"; Sample.item "Face1"] new)
                (Sample.item "Edge1") [Sample.item "Face1"] eq_refl)
      as (self' & Hparse & Helement & _).
    exists self'. split; [exact Hparse | exact Helement].
Defined.

End OnSample.

(** ** Further properties of the selection predicates *)

Section SelectionFurther.

Variable getMeasureElementType : MeasureSelectionItem -> MeasureElementType.

Lemma validEdgeLoop_Permutation (edges edges' : list TopoDS.Edge) :
  edges ≡ₚ edges' -> validEdgeLoop edges = validEdgeLoop edges'.
Proof.
  intros Hperm. apply eq_true_iff_eq.
  rewrite !validEdgeLoop_Exists. by rewrite Hperm.
Qed.

Lemma prioritizedEdgeLoop_Permutation (edges edges' : list TopoDS.Edge) :
  edges ≡ₚ edges' ->
  match prioritizedEdgeLoop false edges with
  | Returned result => result
  | Exhausted foundCircle => if foundCircle then true else false
  end
  = match prioritizedEdgeLoop false edges' with
    | Returned result => result
    | Exhausted foundCircle => if foundCircle then true else false
    end.
Proof.
  intros Hperm. apply eq_true_iff_eq.
  rewrite !prioritizedEdgeLoop_accepts. split; intros [Hne Hall]; split.
  - intros ->. by apply Permutation_nil_r in Hperm.
  - by rewrite <- Hperm.
  - intros ->. by apply Permutation_nil_l in Hperm.
  - by rewrite Hperm.
Qed.

Section OneExplorer.

Variable getShape :
  option DocumentObject -> list Part.ShapeOption -> string -> TopoDS.Shape.

Local Abbreviation isValid := (isValidSelection getMeasureElementType getShape).
Local Abbreviation isPrioritized := (isPrioritizedSelection getMeasureElementType getShape).
Local Abbreviation resolved := (resolved getShape).

(** What [isValidSelection] decides for a face element. *)
Lemma isValidSelection_face (element : MeasureSelectionItem) :
  getMeasureElementType element = SURFACE \/ getMeasureElementType element = PLANE ->
  isValid [element] = true
  <-> exists edges, resolved element = TopoDS.NonNull TopAbs.FACE edges
                    /\ Exists isCircular edges.
Proof.
  intros Htype. rewrite isValidSelection_single. cbv zeta.
  rewrite decide_False by (destruct Htype as [H|H]; rewrite H; done).
  rewrite decide_False
    by (intros [H'|[H'|H']]; destruct Htype as [H|H]; congruence).
  rewrite decide_True by done.
  destruct (resolved element) as [|ShapeType edges].
  - split; [done | intros (? & ? & _); done].
  - destruct (decide (ShapeType = TopAbs.FACE)) as [->|Hother].
    + rewrite validEdgeLoop_Exists. split.
      * intros ?. by exists edges.
      * intros (edges' & Heq & ?). by simplify_eq.
    + split; [done | intros (? & ? & _); congruence].
Qed.

(** X1: an element classified neither CIRCLE, ARC, CYLINDER, SURFACE nor
    PLANE is rejected by both predicates, whatever shape it resolves to. *)
Theorem selection_needs_round_or_face (element : MeasureSelectionItem) :
  ~ (getMeasureElementType element = CIRCLE
     \/ getMeasureElementType element = ARC
     \/ getMeasureElementType element = CYLINDER
     \/ getMeasureElementType element = SURFACE
     \/ getMeasureElementType element = PLANE) ->
  isValid [element] = false /\ isPrioritized [element] = false.
Proof.
  intros Hother.
  rewrite isValidSelection_single, isPrioritizedSelection_single. cbv zeta.
  split.
  - destruct (decide (_ = INVALID)); [done|].
    destruct (decide (_ \/ _ \/ _)); [tauto|].
    destruct (decide (_ \/ _)); [tauto | done].
  - destruct (decide (_ \/ _ \/ _)); [tauto|].
    destruct (decide (_ \/ _)); [tauto | done].
Qed.

(** X2: a selection of exactly one element classified CIRCLE, ARC or
    CYLINDER is prioritized, without its shape being looked at. *)
Theorem isPrioritizedSelection_round (element : MeasureSelectionItem) :
  getMeasureElementType element = CIRCLE
  \/ getMeasureElementType element = ARC
  \/ getMeasureElementType element = CYLINDER ->
  isPrioritized [element] = true.
Proof.
  intros Hround. rewrite isPrioritizedSelection_single. cbv zeta.
  by rewrite decide_True.
Qed.

(** X3: a selection of exactly one element classified SURFACE or PLANE is
    prioritized if and only if its shape is a non-null face all of whose
    boundary edges are circular and which has at least one of them. *)
Theorem isPrioritizedSelection_circular_face (element : MeasureSelectionItem) :
  getMeasureElementType element = SURFACE \/ getMeasureElementType element = PLANE ->
  isPrioritized [element] = true
  <-> allCircularFace (resolved element)
      /\ resolved element <> TopoDS.NonNull TopAbs.FACE [].
Proof.
  intros Htype. rewrite (isPrioritizedSelection_face _ _ _ Htype).
  unfold allCircularFace. split.
  - intros (edges & Hshape & Hne & Hall). split; [by exists edges|].
    rewrite Hshape. intros Heq. by simplify_eq.
  - intros [(edges & Hshape & Hall) Hne]. exists edges.
    repeat split; [done| |done]. intros ->. done.
Qed.

(** X4: the selections that are valid without being prioritized are the
    single SURFACE or PLANE elements resolved to a face that has a circular
    boundary edge and a boundary edge that is not circular. *)
Theorem valid_not_prioritized (selection : MeasureSelection) :
  isValid selection = true /\ isPrioritized selection = false
  <-> exists element edges,
        selection = [element]
        /\ (getMeasureElementType element = SURFACE
            \/ getMeasureElementType element = PLANE)
        /\ resolved element = TopoDS.NonNull TopAbs.FACE edges
        /\ Exists isCircular edges
        /\ Exists (not ∘ isCircular) edges.
Proof.
  split.
  - intros [Hvalid Hprio].
    destruct (decide (length selection = 1)) as [Hlen|Hlen];
      [| by rewrite isValidSelection_not_single in Hvalid].
    destruct selection as [|element [|? ?]]; try done. clear Hlen.
    assert (getMeasureElementType element = SURFACE
            \/ getMeasureElementType element = PLANE) as Htype.
    { rewrite isValidSelection_single in Hvalid.
      rewrite isPrioritizedSelection_single in Hprio. cbv zeta in *.
      destruct (decide (_ \/ _ \/ _)); [done|].
      destruct (decide (_ = INVALID)); [done|].
      by destruct (decide (_ = SURFACE \/ _)). }
    apply (isValidSelection_face _ Htype) in Hvalid as (edges & Hshape & Hsome).
    exists element, edges. repeat split; try done.
    apply not_Forall_Exists; [apply _|]. intros Hall.
    assert (isPrioritized [element] = true) as Hyes; [|congruence].
    apply isPrioritizedSelection_face; [done|].
    exists edges. repeat split; [done| |done].
    intros ->. by apply Exists_nil in Hsome.
  - intros (element & edges & -> & Htype & Hshape & Hsome & Hother). split.
    + apply isValidSelection_face; [done|]. by exists edges.
    + apply not_true_is_false. intros Hprio.
      apply isPrioritizedSelection_face in Hprio as (edges' & Heq & _ & Hall); [|done].
      rewrite Hshape in Heq. simplify_eq.
      by apply Exists_not_Forall in Hother.
Qed.

End OneExplorer.

(** X6: neither predicate depends on the order in which the explorer visits
    the edges of the shape: two explorers that yield the same edges in
    different orders give the same answers. *)
Theorem selection_ignores_edge_order
    (getShape getShape' : option DocumentObject -> list Part.ShapeOption -> string
                          -> TopoDS.Shape)
    (element : MeasureSelectionItem) (ShapeType : TopAbs.ShapeEnum)
    (edges edges' : list TopoDS.Edge) :
  resolved getShape element = TopoDS.NonNull ShapeType edges ->
  resolved getShape' element = TopoDS.NonNull ShapeType edges' ->
  edges ≡ₚ edges' ->
  isValidSelection getMeasureElementType getShape [element]
  = isValidSelection getMeasureElementType getShape' [element]
  /\ isPrioritizedSelection getMeasureElementType getShape [element]
     = isPrioritizedSelection getMeasureElementType getShape' [element].
Proof.
  unfold resolved. intros Hshape Hshape' Hperm.
  rewrite !isValidSelection_single, !isPrioritizedSelection_single. cbv zeta.
  unfold resolved. rewrite Hshape, Hshape'.
  rewrite (validEdgeLoop_Permutation _ _ Hperm).
  by rewrite (prioritizedEdgeLoop_Permutation _ _ Hperm).
Qed.

End SelectionFurther.

(** ** Further properties of the object *)

Section ObjectFurther.

Variable getMeasureInfo : SubObjectT -> option Part.MeasureInfo.
Variable MeasureBase_onChanged : Property -> t -> t.

Local Abbreviation first := (getMeasureInfoFirst getMeasureInfo).
Local Abbreviation exec := (execute getMeasureInfo).
Local Abbreviation changed := (onChanged getMeasureInfo MeasureBase_onChanged).
Local Abbreviation pointOnCurve := (getPointOnCurve getMeasureInfo).
Local Abbreviation placement := (getPlacement getMeasureInfo).

(** The first info is read off the linked object and the first
    sub-element, nothing else. *)
Lemma getMeasureInfoFirst_reads (self self' : t) :
  getValue (Element self) = getValue (Element self') ->
  front (getSubValues (Element self)) = front (getSubValues (Element self')) ->
  first self = first self'.
Proof. unfold getMeasureInfoFirst. by intros -> ->. Qed.

(** The pointer is null exactly when the host's info is valid and is not a
    radius info. *)
Lemma getMeasureInfoFirst_null (self : t) :
  first self = None
  <-> exists object sub rest,
        Element self = {| getValue := Some object; getSubValues := sub :: rest |}
        /\ getMeasureInfo {| getObject := Some object; getSubName := sub |}
           = Some (Part.OtherInfo true).
Proof.
  unfold getMeasureInfoFirst.
  destruct self as [[[object|] [|sub rest]] d r1 r2]; simpl;
    try (split; [done | intros (? & ? & ? & ? & _); done]).
  split.
  - intros Hnull. exists object, sub, rest. split; [done|].
    destruct (getMeasureInfo _) as [[r|[|]]|]; simpl in *; try done.
    by destruct (Part.valid r).
  - intros (? & ? & ? & Heq & Hinfo). simplify_eq. by rewrite Hinfo.
Qed.

Lemma execute_success (self : t) :
  fst (exec self) = StdReturn ->
  exists info, first self = Some info /\ Part.valid info = true.
Proof.
  unfold execute. destruct (first self) as [info|]; [|done].
  destruct (Part.valid info) eqn:Hvalid; [|done]. intros _. by exists info.
Qed.

(** X7: [getMeasureInfoFirst] never hands on an info the host left
    invalid: what it returns is valid, or is the default-constructed
    info. *)
Theorem getMeasureInfoFirst_invalid_is_default (self : t) (info : Part.MeasureRadiusInfo) :
  first self = Some info ->
  Part.valid info = false ->
  info = Part.make_MeasureRadiusInfo.
Proof.
  unfold getMeasureInfoFirst. intros Hfirst Hinvalid.
  destruct (getValue (Element self)) as [object|]; [|by injection Hfirst].
  destruct (front (getSubValues (Element self))) as [sub|]; [|by injection Hfirst].
  destruct (getMeasureInfo _) as [[r|v]|]; simpl in *; [| |by injection Hfirst].
  - destruct (Part.valid r) eqn:Hr; simpl in *; [|by injection Hfirst].
    injection Hfirst as ->. congruence.
  - destruct v; simpl in *; [done | by injection Hfirst].
Qed.

(** X8: [execute] succeeds exactly when [Element] links an object with at
    least one sub-element and the host reports a valid radius info for the
    first of them. *)
Theorem execute_succeeds_iff (self : t) :
  fst (exec self) = StdReturn
  <-> exists object sub rest info,
        Element self = {| getValue := Some object; getSubValues := sub :: rest |}
        /\ getMeasureInfo {| getObject := Some object; getSubName := sub |}
           = Some (Part.RadiusInfo info)
        /\ Part.valid info = true.
Proof.
  split.
  - intros Hok. apply execute_success in Hok as (info & Hfirst & Hvalid).
    destruct (getMeasureInfoFirst_valid _ _ _ Hfirst Hvalid)
      as (object & sub & rest & Helement & Hinfo).
    by exists object, sub, rest, info.
  - intros (object & sub & rest & info & Helement & Hinfo & Hvalid).
    unfold execute, getMeasureInfoFirst. rewrite Helement. simpl.
    rewrite Hinfo. simpl. rewrite Hvalid. simpl. by rewrite Hvalid.
Qed.

(** X9: [execute] is idempotent: run on the object it leaves, it returns
    the same result and leaves the same object. *)
Theorem execute_idempotent (self : t) :
  exec (snd (exec self)) = exec self.
Proof.
  destruct (fst (exec self)) eqn:Hret.
  - apply execute_success in Hret as (info & Hfirst & Hvalid).
    rewrite (execute_valid _ _ _ Hfirst Hvalid). simpl.
    rewrite (execute_valid _ _ info); [done | | done].
    rewrite <- Hfirst. by apply getMeasureInfoFirst_reads.
  - assert (snd (exec self) = self) as ->; [|done].
    unfold execute in *. destruct (first self) as [info|]; [|done].
    by destruct (Part.valid info).
Qed.

(** X10: the outcome of [execute] depends on the linked object and the
    first sub-element only: further sub-elements and the value [Diameter]
    had play no part in the result returned, nor in the diameter set on
    success. *)
Theorem execute_reads_first_sub (self self' : t) :
  getValue (Element self) = getValue (Element self') ->
  front (getSubValues (Element self)) = front (getSubValues (Element self')) ->
  fst (exec self) = fst (exec self')
  /\ (fst (exec self) = StdReturn ->
      Diameter (snd (exec self)) = Diameter (snd (exec self'))).
Proof.
  intros Hobject Hsub.
  pose proof (getMeasureInfoFirst_reads _ _ Hobject Hsub) as Hfirst.
  unfold execute. rewrite <- Hfirst.
  destruct (first self) as [info|]; [|done].
  by destruct (Part.valid info).
Qed.

(** X12: while the object is being restored or removed [onChanged] does
    nothing at all, the base class included; otherwise the change is
    handed to [MeasureBase::onChanged] exactly once, as the last call. *)
Theorem onChanged_forwards (prop : Property) (self : t) :
  (isRestoring self = true \/ isRemoving self = true ->
   changed prop self = ([], self))
  /\ (isRestoring self = false -> isRemoving self = false ->
      exists before,
        fst (changed prop self) = (before ++ [CallMeasureBaseOnChanged prop])%list
        /\ forall p, CallMeasureBaseOnChanged p ∉ before).
Proof.
  unfold onChanged. split.
  - intros Hbusy.
    assert (isRestoring self || isRemoving self = true) as ->; [|done].
    destruct Hbusy as [-> | ->]; [done | by rewrite orb_true_r].
  - intros -> ->. simpl.
    destruct (decide (prop = PropElement)); simpl.
    + exists [CallRecompute]. split; [done|].
      intros p. rewrite list_elem_of_singleton. discriminate.
    + exists []. split; [done|]. intros p. apply not_elem_of_nil.
Qed.

(** X13: [getPlacement] and [getPointOnCurve] dereference a null pointer
    on the same objects, namely those for whose element the host reports a
    valid info that is not a radius info. *)
Theorem getPlacement_undefined (self : t) :
  (placement self = None <-> pointOnCurve self = None)
  /\ (pointOnCurve self = None
      <-> exists object sub rest,
            Element self = {| getValue := Some object; getSubValues := sub :: rest |}
            /\ getMeasureInfo {| getObject := Some object; getSubName := sub |}
               = Some (Part.OtherInfo true)).
Proof.
  rewrite <- getMeasureInfoFirst_null.
  unfold getPlacement, getPointOnCurve.
  destruct (first self); split; split; done.
Qed.

(** X14: after a successful [execute] the point on the curve is the point
    of the radius info the host reported for the element, and the
    placement is the default placement moved to that point. *)
Theorem placement_after_success (self : t) :
  fst (exec self) = StdReturn ->
  exists object sub rest info,
    Element self = {| getValue := Some object; getSubValues := sub :: rest |}
    /\ getMeasureInfo {| getObject := Some object; getSubName := sub |}
       = Some (Part.RadiusInfo info)
    /\ pointOnCurve (snd (exec self)) = Some (Part.pointOnCurve info)
    /\ placement (snd (exec self))
       = Some {| Base.getPosition := Part.pointOnCurve info;
                 Base.getRotation := Base.getRotation Base.Placement_new |}.
Proof.
  intros Hok. apply execute_success in Hok as (info & Hfirst & Hvalid).
  destruct (getMeasureInfoFirst_valid _ _ _ Hfirst Hvalid)
    as (object & sub & rest & Helement & Hinfo).
  exists object, sub, rest, info. split; [done|]. split; [done|].
  rewrite (execute_valid _ _ _ Hfirst Hvalid). simpl.
  assert (first (Diameter_setValue (Part.radius info * 2)%float self) = Some info)
    as Hafter.
  { rewrite <- Hfirst. by apply getMeasureInfoFirst_reads. }
  unfold getPointOnCurve, getPlacement. by rewrite Hafter.
Qed.

End ObjectFurther.

(** ** Parsing a selection *)

Section ParseFurther.

Variable getMeasureElementType : MeasureSelectionItem -> MeasureElementType.
Variable getShape :
  option DocumentObject -> list Part.ShapeOption -> string -> TopoDS.Shape.
Variable getMeasureInfo : SubObjectT -> option Part.MeasureInfo.
Variable MeasureBase_onChanged : Property -> t -> t.

(** The base class's [onChanged] is host code: it is taken not to write the
    [Element] property of this class. *)
Hypothesis MeasureBase_onChanged_Element :
  forall (prop : Property) (self : t),
    Element (MeasureBase_onChanged prop self) = Element self.

Local Abbreviation isValid := (isValidSelection getMeasureElementType getShape).
Local Abbreviation isPrioritized := (isPrioritizedSelection getMeasureElementType getShape).
Local Abbreviation first := (getMeasureInfoFirst getMeasureInfo).
Local Abbreviation exec := (execute getMeasureInfo).
Local Abbreviation changed := (onChanged getMeasureInfo MeasureBase_onChanged).
Local Abbreviation parse := (parseSelection getMeasureInfo MeasureBase_onChanged).

(** X5: a selection either predicate accepts can be parsed: it has one
    element, [parseSelection] is defined on it, and the object then has
    that element's object as its subject and that element's sub-name as its
    only sub-element. *)
Theorem accepted_selection_parses (selection : MeasureSelection) (self : t) :
  isValid selection = true \/ isPrioritized selection = true ->
  exists element self',
    selection = [element]
    /\ parse selection self = Some self'
    /\ getSubject self' = [getObject (object element)]
    /\ getSubValues (Element self') = [getSubName (object element)].
Proof.
  intros Haccepted.
  assert (length selection = 1) as Hlen.
  { destruct (decide (length selection = 1)) as [|Hlen]; [done|].
    destruct Haccepted as [H|H];
      [rewrite isValidSelection_not_single in H
      | rewrite isPrioritizedSelection_not_single in H]; done. }
  destruct selection as [|element [|? ?]]; try done.
  exists element. eexists.
  split; [done|]. split; [by apply parseSelection_front|].
  unfold getSubject.
  by rewrite (onChanged_Element _ _ MeasureBase_onChanged_Element).
Qed.

(** X11: parsing a selection whose first element names an object for which
    the host reports a valid radius info, and executing, succeeds with
    [Diameter] twice that radius; unless the object is being restored or
    removed, the parse has recomputed already, and the object it hands to
    the base class has that diameter. *)
Theorem parseSelection_then_execute
    (selection : MeasureSelection) (self : t) (element : MeasureSelectionItem)
    (object : DocumentObject) (info : Part.MeasureRadiusInfo) :
  front selection = Some element ->
  getObject (App.object element) = Some object ->
  getMeasureInfo {| getObject := Some object;
                    getSubName := getSubName (App.object element) |}
  = Some (Part.RadiusInfo info) ->
  Part.valid info = true ->
  exists self',
    parse selection self = Some self'
    /\ fst (exec self') = StdReturn
    /\ Diameter (snd (exec self')) = (Part.radius info * 2)%float
    /\ Element (snd (exec self')) = Element self'
    /\ (isRestoring self = false -> isRemoving self = false ->
        self' = MeasureBase_onChanged PropElement
                  (Diameter_setValue (Part.radius info * 2)%float
                     (Element_setValue (Some object)
                        [getSubName (App.object element)] self))).
Proof.
  intros Hfront Hobject Hinfo Hvalid.
  rewrite (parseSelection_front _ _ _ _ _ Hfront), Hobject.
  set (stored := Element_setValue (Some object) [getSubName (App.object element)] self).
  assert (first stored = Some info) as Hstored.
  { unfold getMeasureInfoFirst. simpl. rewrite Hinfo. simpl. by rewrite Hvalid. }
  eexists. split; [done|].
  assert (first (snd (changed PropElement stored)) = Some info) as Hfirst.
  { rewrite <- Hstored.
    apply getMeasureInfoFirst_reads;
      by rewrite (onChanged_Element _ _ MeasureBase_onChanged_Element). }
  rewrite (execute_valid _ _ _ Hfirst Hvalid). simpl.
  repeat split.
  intros Hrestoring Hremoving. unfold onChanged, recompute. simpl.
  rewrite Hrestoring, Hremoving. simpl.
  by rewrite (execute_valid _ _ _ Hstored Hvalid).
Qed.

End ParseFurther.

(** ** The further properties on the sample document *)

Section OnSampleFurther.

Local Abbreviation isValid :=
  (isValidSelection Sample.getMeasureElementType Sample.getShape).
Local Abbreviation isPrioritized :=
  (isPrioritizedSelection Sample.getMeasureElementType Sample.getShape).
Local Abbreviation first := (getMeasureInfoFirst Sample.getMeasureInfo).
Local Abbreviation exec := (execute Sample.getMeasureInfo).
Local Abbreviation changed :=
  (onChanged Sample.getMeasureInfo Sample.MeasureBase_onChanged).

Lemma selection_needs_round_or_face_seam :
  isValid [Sample.item "Edge2"] = false
  /\ isPrioritized [Sample.item "Edge2"] = false.
Proof.
  apply (selection_needs_round_or_face
           Sample.getMeasureElementType Sample.getShape (Sample.item "Edge2")).
  vm_compute. intros [H|[H|[H|[H|H]]]]; discriminate H.
Defined.

Lemma isPrioritizedSelection_round_rim :
  isPrioritized [Sample.item "Edge1"] = true.
Proof.
  apply (isPrioritizedSelection_round
           Sample.getMeasureElementType Sample.getShape (Sample.item "Edge1")).
  left; reflexivity.
Defined.

Lemma isPrioritizedSelection_circular_face_disc :
  isPrioritized [Sample.item "Face1"] = true
  /\ allCircularFace (resolved Sample.getShape (Sample.item "Face1")).
Proof.
  split; [reflexivity|].
  apply (isPrioritizedSelection_circular_face
           Sample.getMeasureElementType Sample.getShape (Sample.item "Face1"));
    [right|]; reflexivity.
Defined.

Lemma valid_not_prioritized_half_disc :
  isValid [Sample.item "Face2"] = true
  /\ isPrioritized [Sample.item "Face2"] = false.
Proof.
  apply (valid_not_prioritized Sample.getMeasureElementType Sample.getShape
           [Sample.item "Face2"]).
  exists (Sample.item "Face2"), [Sample.circle; Sample.line].
  split; [reflexivity|]. split; [right; reflexivity|]. split; [reflexivity|].
  split.
  - apply Exists_cons_hd. reflexivity.
  - apply Exists_cons_tl, Exists_cons_hd. discriminate.
Defined.

Lemma accepted_selection_parses_rim :
  isValid [Sample.item "Edge1"] = true
  /\ exists self',
      parseSelection Sample.getMeasureInfo Sample.MeasureBase_onChanged
        [Sample.item "Edge1"] new = Some self'
      /\ getSubject self' = [Some "Cylinder"].
Proof.
  split; [reflexivity|].
  destruct (accepted_selection_parses Sample.getMeasureElementType Sample.getShape
              Sample.getMeasureInfo Sample.MeasureBase_onChanged (fun _ _ => eq_refl)
              [Sample.item "Edge1"] new (or_introl eq_refl))
    as (element & self' & Hsingle & Hparse & Hsubject & _).
  exists self'. split; [exact Hparse|].
  injection Hsingle as <-. exact Hsubject.
Defined.

Lemma selection_ignores_edge_order_half_disc :
  resolved Sample.getShape (Sample.item "Face2")
  = TopoDS.NonNull TopAbs.FACE [Sample.circle; Sample.line]
  /\ resolved Sample.getShapeReversed (Sample.item "Face2")
     = TopoDS.NonNull TopAbs.FACE [Sample.line; Sample.circle]
  /\ isValid [Sample.item "Face2"]
     = isValidSelection Sample.getMeasureElementType Sample.getShapeReversed
         [Sample.item "Face2"].
Proof.
  split; [reflexivity|]. split; [reflexivity|].
  apply (selection_ignores_edge_order Sample.getMeasureElementType
           Sample.getShape Sample.getShapeReversed (Sample.item "Face2")
           TopAbs.FACE [Sample.circle; Sample.line] [Sample.line; Sample.circle]
           eq_refl eq_refl).
  apply perm_swap.
Defined.

Lemma getMeasureInfoFirst_invalid_is_default_abandoned :
  getMeasureInfoFirst Sample.getMeasureInfoAbandoned Sample.ofRim
  = Some Part.make_MeasureRadiusInfo
  /\ Part.valid Part.make_MeasureRadiusInfo = false
  /\ Part.make_MeasureRadiusInfo = Part.make_MeasureRadiusInfo.
Proof.
  split; [reflexivity|]. split; [reflexivity|].
  apply (getMeasureInfoFirst_invalid_is_default
           Sample.getMeasureInfoAbandoned Sample.ofRim
           Part.make_MeasureRadiusInfo eq_refl eq_refl).
Defined.

Lemma execute_succeeds_iff_rim :
  fst (exec Sample.ofRim) = StdReturn
  /\ exists object sub rest info,
      Element Sample.ofRim = {| getValue := Some object; getSubValues := sub :: rest |}
      /\ Sample.getMeasureInfo {| getObject := Some object; getSubName := sub |}
         = Some (Part.RadiusInfo info)
      /\ Part.valid info = true.
Proof.
  split; [reflexivity|].
  apply (execute_succeeds_iff Sample.getMeasureInfo Sample.ofRim). reflexivity.
Defined.

Lemma execute_reads_first_sub_rim :
  fst (exec Sample.ofRim)
  = fst (exec (Element_setValue (Some "Cylinder") ["Edge1"; "Face2"] new))
  /\ Diameter (snd (exec Sample.ofRim))
     = Diameter (snd (exec (Element_setValue (Some "Cylinder") ["Edge1"; "Face2"] new))).
Proof.
  destruct (execute_reads_first_sub Sample.getMeasureInfo Sample.ofRim
              (Element_setValue (Some "Cylinder") ["Edge1"; "Face2"] new)
              eq_refl eq_refl) as [Hret Hdiameter].
  split; [exact Hret | apply Hdiameter; reflexivity].
Defined.

Lemma parseSelection_then_execute_rim :
  exists self',
    parseSelection Sample.getMeasureInfo Sample.MeasureBase_onChanged
      [Sample.item "Edge1"; Sample.item "Face1"] new = Some self'
    /\ fst (exec self') = StdReturn
    /\ Diameter (snd (exec self')) = 5%float
    /\ self' = Sample.ofRim.
Proof.
  destruct (parseSelection_then_execute Sample.getMeasureInfo
              Sample.MeasureBase_onChanged (fun _ _ => eq_refl)
              [Sample.item "Edge1"; Sample.item "Face1"] new (Sample.item "Edge1")
              "Cylinder" Sample.rim eq_refl eq_refl eq_refl eq_refl)
    as (self' & Hparse & Hret & Hdiameter & _ & Hhanded).
  exists self'. split; [exact Hparse|]. split; [exact Hret|].
  split; [rewrite Hdiameter; reflexivity|].
  rewrite (Hhanded eq_refl eq_refl). reflexivity.
Defined.

Lemma onChanged_forwards_sample :
  changed PropElement Sample.restoringRim = ([], Sample.restoringRim)
  /\ exists before,
      fst (changed (PropInherited "Label") Sample.ofRim)
      = (before ++ [CallMeasureBaseOnChanged (PropInherited "Label")])%list.
Proof.
  split.
  - apply (onChanged_forwards Sample.getMeasureInfo Sample.MeasureBase_onChanged
             PropElement Sample.restoringRim).
    left; reflexivity.
  - destruct (proj2 (onChanged_forwards Sample.getMeasureInfo
                       Sample.MeasureBase_onChanged
                       (PropInherited "Label") Sample.ofRim) eq_refl eq_refl)
      as (before & Hcalls & _).
    exists before. exact Hcalls.
Defined.

Lemma getPlacement_undefined_surface :
  getPointOnCurve Sample.getMeasureInfo Sample.linkedToSurface = None
  /\ getPlacement Sample.getMeasureInfo Sample.linkedToSurface = None.
Proof.
  destruct (getPlacement_undefined Sample.getMeasureInfo Sample.linkedToSurface)
    as [Hsame Hnull].
  assert (getPointOnCurve Sample.getMeasureInfo Sample.linkedToSurface = None)
    as Hpoint.
  { apply Hnull. exists "Cylinder", "Face3", []. split; reflexivity. }
  split; [exact Hpoint | apply Hsame; exact Hpoint].
Defined.

Lemma placement_after_success_rim :
  fst (exec Sample.linkedToRim) = StdReturn
  /\ exists info,
      getPointOnCurve Sample.getMeasureInfo (snd (exec Sample.linkedToRim))
      = Some (Part.pointOnCurve info).
Proof.
  split; [reflexivity|].
  destruct (placement_after_success Sample.getMeasureInfo Sample.linkedToRim eq_refl)
    as (object & sub & rest & info & _ & _ & Hpoint & _).
  exists info. exact Hpoint.
Defined.

End OnSampleFurther.

End MeasureDiameter.
